(** * A WhatsApp-to-Gemini relay bot: the message handler of [src/index.js]

    The program is one event handler glued between two libraries: the
    WhatsApp session ([message.reply]) and the AI SDK ([generateText]).
    Both are outside the program; their behaviour during one reply cycle is
    a parameter of the model ([Collaborators]).  The handler itself is
    embedded in a small state-and-rejection monad whose state holds the
    message object and the chronological trace of what the handler asked of
    the outside world. *)

From Stdlib Require Import Ascii String NArith ZArith Bool List Lia.
From stdpp Require Import base option list gmap strings.
Import ListNotations.

Open Scope string_scope.
Open Scope list_scope.

(** ** JavaScript strings

    A message body is a Rocq [string]: a sequence of 8-bit code units, read
    as the code points U+0000..U+00FF.  On that range
    [String.prototype.toLowerCase] works code unit by code unit: it adds 32
    to A..Z (65..90) and to the accented capitals U+00C0..U+00DE other than
    the multiplication sign U+00D7, and leaves every other unit alone. *)
Module Js.

Definition is_upper (c : ascii) : bool :=
  let n := N_of_ascii c in
  ((65 <=? n) && (n <=? 90) || (192 <=? n) && (n <=? 222) && negb (n =? 215))%N.

Definition lower_unit (c : ascii) : ascii :=
  if is_upper c then ascii_of_N (N_of_ascii c + 32) else c.

Fixpoint toLowerCase (s : string) : string :=
  match s with
  | EmptyString => EmptyString
  | String c rest => String (lower_unit c) (toLowerCase rest)
  end.

(** [ToBoolean] on a string, as taken by [if (msg)]: only the empty string
    is falsy. *)
Definition truthy (s : string) : bool :=
  match s with
  | EmptyString => false
  | String _ _ => true
  end.

(** White space and line terminators of the language that lie in the
    modelled range: TAB, LF, VT, FF, CR, SPACE and NO-BREAK SPACE. *)
Definition is_space (c : ascii) : bool :=
  let n := N_of_ascii c in
  ((9 <=? n) && (n <=? 13) || (n =? 32) || (n =? 160))%N.

Fixpoint whitespace_only (s : string) : bool :=
  match s with
  | EmptyString => true
  | String c rest => is_space c && whitespace_only rest
  end.

Fixpoint trimStart (s : string) : string :=
  match s with
  | EmptyString => EmptyString
  | String c rest => if is_space c then trimStart rest else s
  end.

Fixpoint trimEnd (s : string) : string :=
  match s with
  | EmptyString => EmptyString
  | String c rest =>
      if is_space c && whitespace_only rest then EmptyString
      else String c (trimEnd rest)
  end.

Definition trim (s : string) : string := trimEnd (trimStart s).

(** Two bodies are equal up to letter case when they have the same length
    and, position by position, hold the same unit or the two cases of one
    letter.  The definition does not mention [toLowerCase]. *)
Definition same_letter (c1 c2 : ascii) : Prop :=
  c1 = c2
  \/ (is_upper c1 = true /\ N_of_ascii c2 = (N_of_ascii c1 + 32)%N)
  \/ (is_upper c2 = true /\ N_of_ascii c1 = (N_of_ascii c2 + 32)%N).

Inductive eq_upto_case : string -> string -> Prop :=
| euc_nil : eq_upto_case EmptyString EmptyString
| euc_cons c1 c2 s1 s2 :
    same_letter c1 c2 -> eq_upto_case s1 s2 ->
    eq_upto_case (String c1 s1) (String c2 s2).

End Js.

(** ** The outside world *)

(** What a promise is rejected with.  The program never inspects it; it is
    only logged or passed on. *)
Inductive Reason : Type :=
| Timeout
| QuotaExceeded
| NetworkError
| MalformedResponse
| MissingApiKey
| SendFailed
| OtherError (detail : string).

(** The state a promise settles in. *)
Inductive Settled (A : Type) : Type :=
| Fulfilled (a : A)
| Rejected (e : Reason).
Arguments Fulfilled {A} a.
Arguments Rejected {A} e.

(** The message object handed to the listener.  The handler reads [body]
    only. *)
Record IncomingMessage : Type := {
  sender_id : string;
  body : string;
  received_at : Z
}.

(** The two collaborators during one reply cycle.  [reply_result n text] is
    how the transport settles the [n]-th call of [message.reply] of the
    cycle (counting from 0) when asked to send [text]; [generateText model
    prompt] is how the AI SDK settles the completion request. *)
Record Collaborators : Type := {
  reply_result : nat -> string -> Settled unit;
  generateText : string -> string -> Settled string
}.

(** Everything the handler asks of the outside, in the order it asks. *)
Inductive Event : Type :=
| EvReply (text : string) (r : Settled unit)
| EvGenerate (model prompt : string) (r : Settled string)
| EvConsoleError (label : string) (e : Reason).

Record World : Type := {
  message : IncomingMessage;
  events : list Event
}.

Definition is_reply (ev : Event) : bool :=
  match ev with EvReply _ _ => true | _ => false end.

Definition replies_so_far (w : World) : nat :=
  length (filter (fun ev => is_reply ev = true) (events w)).

Definition record (ev : Event) (w : World) : World :=
  {| message := message w; events := events w ++ [ev] |}.

(** ** The monad of an [async] function body *)

Definition Async (A : Type) : Type :=
  Collaborators -> World -> Settled A * World.

Definition ret {A} (a : A) : Async A := fun _ w => (Fulfilled a, w).

Definition bind {A B} (c : Async A) (k : A -> Async B) : Async B :=
  fun env w =>
    match c env w with
    | (Fulfilled a, w') => k a env w'
    | (Rejected e, w') => (Rejected e, w')
    end.

Definition try_catch {A} (c : Async A) (h : Reason -> Async A) : Async A :=
  fun env w =>
    match c env w with
    | (Fulfilled a, w') => (Fulfilled a, w')
    | (Rejected e, w') => h e env w'
    end.

#[export] Instance Async_ret : MRet Async := @ret.
#[export] Instance Async_bind : MBind Async := fun A B k c => bind c k.

(** [message.body] *)
Definition message_body : Async string :=
  fun _ w => (Fulfilled (body (message w)), w).

(** [await message.reply(text)] *)
Definition message_reply (text : string) : Async unit :=
  fun env w =>
    let r := reply_result env (replies_so_far w) text in
    (r, record (EvReply text r) w).

(** [await generateText({ model: google(model), prompt })], giving [text] *)
Definition await_generateText (model prompt : string) : Async string :=
  fun env w =>
    let r := generateText env model prompt in
    (r, record (EvGenerate model prompt r) w).

(** [console.error(label, error)] *)
Definition console_error (label : string) (e : Reason) : Async unit :=
  fun _ w => (Fulfilled tt, record (EvConsoleError label e) w).

(** ** The program *)

Definition ack_text : string := "AI is Thinking....".
Definition fallback_text : string := "Sorry, I couldn't process that request.".
Definition model_id : string := "gemini-2.0-flash".

(** [const ai = async (prompt) => { const { text } = await generateText(..);
    return text; }] *)
Definition ai (prompt : string) : Async string :=
  text ← await_generateText model_id prompt;
  mret text.

(** The listener registered with [client.on("message", ...)]. *)
Definition on_message : Async unit :=
  b ← message_body;
  let msg := Js.toLowerCase b in
  if Js.truthy msg then
    message_reply ack_text;;
    try_catch
      (aiResponse ← ai msg;
       message_reply aiResponse)
      (fun error =>
         console_error "AI Error:" error;;
         message_reply fallback_text)
  else mret tt.

(** One reply cycle: the listener run on a fresh message object. *)
Definition handle (env : Collaborators) (m : IncomingMessage)
  : Settled unit * World :=
  on_message env {| message := m; events := [] |}.

Definition outcome (r : Settled unit * World) : Settled unit := fst r.
Definition trace (r : Settled unit * World) : list Event := events (snd r).

(** Texts handed to [message.reply], whether or not the send went through. *)
Fixpoint outbound (evs : list Event) : list string :=
  match evs with
  | [] => []
  | EvReply text _ :: rest => text :: outbound rest
  | _ :: rest => outbound rest
  end.

(** Prompts handed to the Completion Client. *)
Fixpoint prompts (evs : list Event) : list string :=
  match evs with
  | [] => []
  | EvGenerate _ p _ :: rest => p :: prompts rest
  | _ :: rest => prompts rest
  end.

(** What [console.error] was given. *)
Fixpoint logged (evs : list Event) : list Reason :=
  match evs with
  | [] => []
  | EvConsoleError _ e :: rest => e :: logged rest
  | _ :: rest => logged rest
  end.


Definition always_sends : nat -> string -> Settled unit :=
  fun _ _ => Fulfilled tt.

Definition answers (text : string) : Collaborators :=
  {| reply_result := always_sends;
     generateText := fun _ _ => Fulfilled text |}.

Definition fails_with (e : Reason) : Collaborators :=
  {| reply_result := always_sends;
     generateText := fun _ _ => Rejected e |}.

(** A transport that is down: every send is rejected. *)
Definition transport_down : Collaborators :=
  {| reply_result := fun _ _ => Rejected SendFailed;
     generateText := fun _ _ => Fulfilled "hello" |}.

(** A transport that loses exactly the second send of the cycle. *)
Definition drops_second (text : string) : Collaborators :=
  {| reply_result := fun n _ =>
       match n with 1 => Rejected SendFailed | _ => Fulfilled tt end;
     generateText := fun _ _ => Fulfilled text |}.

Definition msg_of (b : string) : IncomingMessage :=
  {| sender_id := "A"; body := b; received_at := 0 |}.

(** ** Start-up: the top level of the module *)

(** The three callbacks the module registers. *)
Inductive Listener : Type :=
| QrListener
| ReadyListener
| MessageListener.

Definition Listener_eqb (a b : Listener) : bool :=
  match a, b with
  | QrListener, QrListener
  | ReadyListener, ReadyListener
  | MessageListener, MessageListener => true
  | _, _ => false
  end.

Record Client : Type := {
  headless : bool;
  listeners : list (string * Listener);
  initialize_calls : nat
}.

(** The Node process after the module body has run.  [exit_code] is [None]
    while the process keeps running. *)
Record Process : Type := {
  process_env : gmap string string;
  client : Client;
  exit_code : option Z
}.

(** [import "dotenv/config"]: the entries of the [.env] file are added to
    [process.env]; a variable already set keeps its value. *)
Definition dotenv_config (file env : gmap string string) : gmap string string :=
  env ∪ file.

(** [new Client({ puppeteer: { headless } })] *)
Definition new_Client (h : bool) : Client :=
  {| headless := h; listeners := []; initialize_calls := 0 |}.

(** [client.on(event, listener)] *)
Definition client_on (event : string) (l : Listener) (c : Client) : Client :=
  {| headless := headless c;
     listeners := listeners c ++ [(event, l)];
     initialize_calls := initialize_calls c |}.

(** [client.initialize()] *)
Definition client_initialize (c : Client) : Client :=
  {| headless := headless c;
     listeners := listeners c;
     initialize_calls := S (initialize_calls c) |}.

(** The module body, statement by statement.  No statement reads
    [process.env] and none calls [process.exit]. *)
Definition startup (file env : gmap string string) : Process :=
  let env1 := dotenv_config file env in
  let c0 := new_Client true in
  let c1 := client_on "qr" QrListener c0 in
  let c2 := client_on "ready" ReadyListener c1 in
  let c3 := client_on "message" MessageListener c2 in
  let c4 := client_initialize c3 in
  {| process_env := env1; client := c4; exit_code := None |}.

Definition listens_for_messages (c : Client) : bool :=
  existsb (fun el => String.eqb (fst el) "message" && Listener_eqb (snd el) MessageListener)
          (listeners c).

(** What a running process does with a message event: the registered
    listener runs one reply cycle.  An exited process handles nothing. *)
Definition emit_message (p : Process) (env : Collaborators) (m : IncomingMessage)
  : option (Settled unit * World) :=
  match exit_code p with
  | Some _ => None
  | None => if listens_for_messages (client p) then Some (handle env m) else None
  end.

(** An unrecoverable start-up failure: the process has exited with a
    non-zero code. *)
Definition exited_nonzero (p : Process) : Prop :=
  match exit_code p with
  | Some code => code <> 0%Z
  | None => False
  end.

(** The normalisation in the words of the specification (section 4.1,
    step 2: lower-cased, trimmed).  The program has no such function; this
    one is only compared with what [on_message] hands to [ai]. *)
Definition normalize_spec (b : string) : string :=
  Js.toLowerCase (Js.trim b).

(** ** The paths of a reply cycle *)

(** Every run of the listener follows one of five paths, told apart by how
    the collaborators settle.  [msg] is the lower-cased body. *)
Inductive cycle (env : Collaborators) (msg : string)
  : Settled unit -> list Event -> Prop :=
| cycle_skip :
    msg = "" ->
    cycle env msg (Fulfilled tt) []
| cycle_ack_rejected e :
    msg <> "" ->
    reply_result env 0 ack_text = Rejected e ->
    cycle env msg (Rejected e) [EvReply ack_text (Rejected e)]
| cycle_relayed t :
    msg <> "" ->
    reply_result env 0 ack_text = Fulfilled tt ->
    generateText env model_id msg = Fulfilled t ->
    reply_result env 1 t = Fulfilled tt ->
    cycle env msg (Fulfilled tt)
      [EvReply ack_text (Fulfilled tt);
       EvGenerate model_id msg (Fulfilled t);
       EvReply t (Fulfilled tt)]
| cycle_relay_rejected t e r :
    msg <> "" ->
    reply_result env 0 ack_text = Fulfilled tt ->
    generateText env model_id msg = Fulfilled t ->
    reply_result env 1 t = Rejected e ->
    reply_result env 2 fallback_text = r ->
    cycle env msg r
      [EvReply ack_text (Fulfilled tt);
       EvGenerate model_id msg (Fulfilled t);
       EvReply t (Rejected e);
       EvConsoleError "AI Error:" e;
       EvReply fallback_text r]
| cycle_completion_rejected e r :
    msg <> "" ->
    reply_result env 0 ack_text = Fulfilled tt ->
    generateText env model_id msg = Rejected e ->
    reply_result env 1 fallback_text = r ->
    cycle env msg r
      [EvReply ack_text (Fulfilled tt);
       EvGenerate model_id msg (Rejected e);
       EvConsoleError "AI Error:" e;
       EvReply fallback_text r].


(** A computation leaves the message object alone when the object in the
    store is the same after it as before it, for every behaviour of the
    collaborators. *)
Definition frames_message {A : Type} (c : Async A) : Prop :=
  forall env w, message (snd (c env w)) = message w.

(** ** Subscriptions *)

(** The event names the module subscribes to. *)
Definition subscribed : list string := ["qr"; "ready"; "message"].

(** The listeners registered under an event name, in the order they were
    registered. *)
Definition listeners_for (name : string) (c : Client) : list Listener :=
  map snd (List.filter (fun el => String.eqb (fst el) name) (listeners c)).

(** ** Observations on a trace *)


(** The model identifiers the Completion Client was called with. *)
Fixpoint models (evs : list Event) : list string :=
  match evs with
  | [] => []
  | EvGenerate model _ _ :: rest => model :: models rest
  | _ :: rest => models rest
  end.

(** ** Bodies beyond U+00FF

    The same listener over strings of UTF-16 code units, for bodies the
    8-bit model cannot hold.  [toLowerCase] here is the built-in on strings
    whose units lie in the blocks it tabulates: U+0000..U+00FF, the Greek
    capitals U+0391..U+03A9 and the Greek small letters U+03B1..U+03C9.  It
    includes the one context-sensitive rule of the locale-independent
    mapping: a capital sigma becomes the final sigma U+03C2 when a cased
    letter comes before it (case-ignorable units aside) and none comes
    after it, and the small sigma U+03C3 otherwise. *)
Module Utf16.

Definition ustring : Type := list N.

(** The code units of an 8-bit string. *)
Definition units (s : string) : ustring :=
  map N_of_ascii (list_ascii_of_string s).

Definition capital_sigma : N := 931.
Definition small_sigma : N := 963.
Definition final_sigma : N := 962.

Definition latin1 (u : N) : bool := (u <=? 255)%N.

Definition covered (u : N) : bool :=
  ((u <=? 255)
   || (913 <=? u) && (u <=? 937) && negb (u =? 930)
   || (945 <=? u) && (u <=? 969))%N.

Definition is_upper (u : N) : bool :=
  ((65 <=? u) && (u <=? 90)
   || (192 <=? u) && (u <=? 222) && negb (u =? 215)
   || (913 <=? u) && (u <=? 937) && negb (u =? 930))%N.

Definition is_lower (u : N) : bool :=
  ((97 <=? u) && (u <=? 122)
   || (u =? 170) || (u =? 181) || (u =? 186)
   || (223 <=? u) && (u <=? 255) && negb (u =? 247)
   || (945 <=? u) && (u <=? 969))%N.

Definition cased (u : N) : bool := is_upper u || is_lower u.

(** Apostrophe, full stop, colon, circumflex, grave, diaeresis, soft
    hyphen, macron, acute, middle dot and cedilla. *)
Definition case_ignorable (u : N) : bool :=
  existsb (N.eqb u) [39; 46; 58; 94; 96; 168; 173; 175; 180; 183; 184]%N.

Definition lower_unit (u : N) : N :=
  if is_upper u then (u + 32)%N else u.

(** Is a cased letter next, case-ignorable units aside? *)
Fixpoint cased_follows (rest : ustring) : bool :=
  match rest with
  | [] => false
  | u :: rest' => if case_ignorable u then cased_follows rest' else cased u
  end.

(** Lower-casing from left to right; [after_cased] tells whether a cased
    letter comes before the current unit, case-ignorable units aside. *)
Fixpoint lower_from (after_cased : bool) (s : ustring) : ustring :=
  match s with
  | [] => []
  | u :: rest =>
      let out :=
        if (u =? capital_sigma)%N then
          if after_cased && negb (cased_follows rest)
          then final_sigma else small_sigma
        else lower_unit u in
      let after := if case_ignorable u then after_cased else cased u in
      out :: lower_from after rest
  end.

Definition toLowerCase (s : ustring) : ustring := lower_from false s.

Definition truthy (s : ustring) : bool :=
  match s with
  | [] => false
  | _ :: _ => true
  end.

(** Two units are the two cases of one letter, or equal. *)
Definition same_letter (u1 u2 : N) : Prop :=
  u1 = u2
  \/ (is_upper u1 = true /\ u2 = (u1 + 32)%N)
  \/ (is_upper u2 = true /\ u1 = (u2 + 32)%N).

(** Equal up to letter case: same length and, position by position, the
    same letter. *)
Definition eq_upto_case (s1 s2 : ustring) : Prop := Forall2 same_letter s1 s2.

Record IncomingMessage : Type := {
  sender_id : string;
  body : ustring;
  received_at : Z
}.

Record Collaborators : Type := {
  reply_result : nat -> ustring -> Settled unit;
  generateText : string -> ustring -> Settled ustring
}.

Inductive Event : Type :=
| EvReply (text : ustring) (r : Settled unit)
| EvGenerate (model : string) (prompt : ustring) (r : Settled ustring)
| EvConsoleError (label : string) (e : Reason).

Record World : Type := {
  message : IncomingMessage;
  events : list Event
}.

Definition is_reply (ev : Event) : bool :=
  match ev with EvReply _ _ => true | _ => false end.

Definition replies_so_far (w : World) : nat :=
  length (List.filter is_reply (events w)).

Definition record (ev : Event) (w : World) : World :=
  {| message := message w; events := events w ++ [ev] |}.

Definition Async (A : Type) : Type :=
  Collaborators -> World -> Settled A * World.

Definition ret {A} (a : A) : Async A := fun _ w => (Fulfilled a, w).

Definition bind {A B} (c : Async A) (k : A -> Async B) : Async B :=
  fun env w =>
    match c env w with
    | (Fulfilled a, w') => k a env w'
    | (Rejected e, w') => (Rejected e, w')
    end.

Definition try_catch {A} (c : Async A) (h : Reason -> Async A) : Async A :=
  fun env w =>
    match c env w with
    | (Fulfilled a, w') => (Fulfilled a, w')
    | (Rejected e, w') => h e env w'
    end.

#[export] Instance Async_ret : MRet Async := @ret.
#[export] Instance Async_bind : MBind Async := fun A B k c => bind c k.

Definition message_body : Async ustring :=
  fun _ w => (Fulfilled (body (message w)), w).

Definition message_reply (text : ustring) : Async unit :=
  fun env w =>
    let r := reply_result env (replies_so_far w) text in
    (r, record (EvReply text r) w).

Definition await_generateText (model : string) (prompt : ustring)
  : Async ustring :=
  fun env w =>
    let r := generateText env model prompt in
    (r, record (EvGenerate model prompt r) w).

Definition console_error (label : string) (e : Reason) : Async unit :=
  fun _ w => (Fulfilled tt, record (EvConsoleError label e) w).

(** [ai], as above. *)
Definition ai (prompt : ustring) : Async ustring :=
  text ← await_generateText model_id prompt;
  mret text.

(** The listener registered with [client.on("message", ...)], as above,
    with the two fixed replies as code units. *)
Definition on_message : Async unit :=
  b ← message_body;
  let msg := toLowerCase b in
  if truthy msg then
    message_reply (units ack_text);;
    try_catch
      (aiResponse ← ai msg;
       message_reply aiResponse)
      (fun error =>
         console_error "AI Error:" error;;
         message_reply (units fallback_text))
  else mret tt.

Definition handle (env : Collaborators) (m : IncomingMessage)
  : Settled unit * World :=
  on_message env {| message := m; events := [] |}.

Definition outcome (r : Settled unit * World) : Settled unit := fst r.
Definition trace (r : Settled unit * World) : list Event := events (snd r).

Fixpoint outbound (evs : list Event) : list ustring :=
  match evs with
  | [] => []
  | EvReply text _ :: rest => text :: outbound rest
  | _ :: rest => outbound rest
  end.

Fixpoint prompts (evs : list Event) : list ustring :=
  match evs with
  | [] => []
  | EvGenerate _ p _ :: rest => p :: prompts rest
  | _ :: rest => prompts rest
  end.

(** A transport that accepts every send, and a Completion Client that
    answers every prompt with the same text. *)
Definition answers (text : ustring) : Collaborators :=
  {| reply_result := fun _ _ => Fulfilled tt;
     generateText := fun _ _ => Fulfilled text |}.

Definition msg_of (b : ustring) : IncomingMessage :=
  {| sender_id := "A"; body := b; received_at := 0 |}.

End Utf16.

(** * Properties *)

(** ** Sanity checks on concrete runs *)

Example relay_four :
  outbound (trace (handle (answers "4") (msg_of "What is 2+2?")))
  = ["AI is Thinking...."; "4"].
Proof. reflexivity. Qed.

Example relay_prompt :
  prompts (trace (handle (answers "4") (msg_of "  Hello WORLD  ")))
  = ["  hello world  "].
Proof. reflexivity. Qed.

Example normalize_spec_hello : normalize_spec "  Hello WORLD  " = "hello world".
Proof. reflexivity. Qed.

Example lower_accented :
  Js.toLowerCase (String (ascii_of_N 201) (String (ascii_of_N 215) "Z"))
  = String (ascii_of_N 233) (String (ascii_of_N 215) "z").
Proof. reflexivity. Qed.

(** ** Lower-casing *)

Lemma toLowerCase_empty (s : string) : Js.toLowerCase s = "" <-> s = "".
Proof. destruct s; simpl; split; congruence. Qed.

Lemma is_upper_range (c : ascii) :
  Js.is_upper c = true ->
  (65 <= N_of_ascii c <= 90 \/ 192 <= N_of_ascii c <= 222)%N.
Proof.
  unfold Js.is_upper; intros H.
  apply orb_true_iff in H as [H|H].
  - apply andb_true_iff in H as [H1 H2].
    apply N.leb_le in H1, H2. lia.
  - apply andb_true_iff in H as [H _].
    apply andb_true_iff in H as [H1 H2].
    apply N.leb_le in H1, H2. lia.
Qed.

(** The lower-case partner of a capital is not itself a capital. *)
Lemma partner_not_upper (c1 c2 : ascii) :
  Js.is_upper c1 = true ->
  N_of_ascii c2 = (N_of_ascii c1 + 32)%N ->
  Js.is_upper c2 = false.
Proof.
  intros Hup Hc2. pose proof (is_upper_range c1 Hup) as Hr.
  unfold Js.is_upper in *. rewrite Hc2.
  set (n := N_of_ascii c1) in *.
  destruct (N.leb_spec 65 (n + 32)), (N.leb_spec (n + 32) 90),
    (N.leb_spec 192 (n + 32)), (N.leb_spec (n + 32) 222); simpl; try reflexivity;
    lia.
Qed.

Lemma lower_unit_partner (c1 c2 : ascii) :
  Js.is_upper c1 = true ->
  N_of_ascii c2 = (N_of_ascii c1 + 32)%N ->
  Js.lower_unit c1 = Js.lower_unit c2.
Proof.
  intros Hup Hc2. unfold Js.lower_unit.
  rewrite Hup, (partner_not_upper c1 c2 Hup Hc2), <- Hc2.
  apply ascii_N_embedding.
Qed.

Lemma lower_unit_same_letter (c1 c2 : ascii) :
  Js.same_letter c1 c2 -> Js.lower_unit c1 = Js.lower_unit c2.
Proof.
  intros [->|[[Hup Hc]|[Hup Hc]]].
  - reflexivity.
  - now apply lower_unit_partner.
  - symmetry. now apply lower_unit_partner.
Qed.

Lemma toLowerCase_eq_upto_case (s1 s2 : string) :
  Js.eq_upto_case s1 s2 -> Js.toLowerCase s1 = Js.toLowerCase s2.
Proof.
  induction 1 as [|c1 c2 s1 s2 Hc _ IH]; simpl.
  - reflexivity.
  - now rewrite (lower_unit_same_letter _ _ Hc), IH.
Qed.

(** ** The listener follows the five paths *)

Lemma handle_cycle (env : Collaborators) (m : IncomingMessage) :
  cycle env (Js.toLowerCase (body m))
        (outcome (handle env m)) (trace (handle env m)).
Proof.
  unfold handle, outcome, trace, on_message.
  unfold mbind, Async_bind, bind, message_body; simpl.
  destruct (Js.toLowerCase (body m)) as [|c rest] eqn:Hmsg; simpl.
  { now constructor. }
  assert (Hne : String c rest <> "") by discriminate.
  unfold message_reply at 1, replies_so_far; simpl.
  destruct (reply_result env 0 ack_text) as [[]|e] eqn:Hack; simpl.
  2:{ now apply cycle_ack_rejected. }
  unfold try_catch, ai, mbind, mret, Async_bind, Async_ret, bind, ret,
    await_generateText; simpl.
  destruct (generateText env model_id (String c rest)) as [t|e] eqn:Hgen; simpl.
  - unfold message_reply, replies_so_far; simpl.
    destruct (reply_result env 1 t) as [[]|e] eqn:Hsend; simpl.
    + now apply cycle_relayed.
    + unfold console_error, message_reply, replies_so_far; simpl.
      now eapply cycle_relay_rejected.
  - unfold console_error, message_reply, replies_so_far; simpl.
    now eapply cycle_completion_rejected.
Qed.

(** The collaborators and the lower-cased body determine the path. *)
Lemma cycle_functional (env : Collaborators) (msg : string)
    (o1 o2 : Settled unit) (t1 t2 : list Event) :
  cycle env msg o1 t1 -> cycle env msg o2 t2 -> o1 = o2 /\ t1 = t2.
Proof.
  intros H1 H2.
  destruct H1; destruct H2; subst; try contradiction; try congruence;
    repeat match goal with
           | Ha : ?x = _, Hb : ?x = _ |- _ =>
               rewrite Ha in Hb; inversion Hb; subst; clear Hb
           end;
    try discriminate; auto.
Qed.

(** Case analysis on the path taken by [handle env m]: one goal per
    constructor of [cycle], with the outcome and the trace replaced by what
    the path fixes them to. *)
Ltac by_path env m :=
  let Hc := fresh "Hc" in
  let o := fresh "o" in
  let t := fresh "t" in
  pose proof (handle_cycle env m) as Hc;
  remember (outcome (handle env m)) as o;
  remember (trace (handle env m)) as t;
  destruct Hc.

(** ** The message object is framed *)

Section Frame.
Context {A B : Type}.

Lemma frames_ret (a : A) : frames_message (ret a).
Proof. intros env w. reflexivity. Qed.

Lemma frames_bind (c : Async A) (k : A -> Async B) :
  frames_message c -> (forall a, frames_message (k a)) ->
  frames_message (bind c k).
Proof.
  intros Hc Hk env w. unfold bind.
  specialize (Hc env w).
  destruct (c env w) as [[a|e] w']; simpl in *.
  - now rewrite Hk.
  - exact Hc.
Qed.

Lemma frames_try_catch (c : Async A) (h : Reason -> Async A) :
  frames_message c -> (forall e, frames_message (h e)) ->
  frames_message (try_catch c h).
Proof.
  intros Hc Hh env w. unfold try_catch.
  specialize (Hc env w).
  destruct (c env w) as [[a|e] w']; simpl in *.
  - exact Hc.
  - now rewrite Hh.
Qed.
End Frame.

Lemma frames_message_body : frames_message message_body.
Proof. intros env w. reflexivity. Qed.

Lemma frames_message_reply (text : string) : frames_message (message_reply text).
Proof. intros env w. reflexivity. Qed.

Lemma frames_await_generateText (model prompt : string) :
  frames_message (await_generateText model prompt).
Proof. intros env w. reflexivity. Qed.

Lemma frames_console_error (label : string) (e : Reason) :
  frames_message (console_error label e).
Proof. intros env w. reflexivity. Qed.

Lemma frames_ai (prompt : string) : frames_message (ai prompt).
Proof.
  unfold ai, mbind, mret, Async_bind, Async_ret.
  apply frames_bind; [apply frames_await_generateText|].
  intros text. apply frames_ret.
Qed.

Lemma frames_on_message : frames_message on_message.
Proof.
  unfold on_message, mbind, mret, Async_bind, Async_ret.
  apply frames_bind; [apply frames_message_body|]. intros b. cbv zeta.
  destruct (Js.truthy (Js.toLowerCase b)); [|apply frames_ret].
  apply frames_bind; [apply frames_message_reply|]. intros _.
  apply frames_try_catch.
  - apply frames_bind; [apply frames_ai|]. intros t. apply frames_message_reply.
  - intros e. apply frames_bind; [apply frames_console_error|].
    intros _. apply frames_message_reply.
Qed.

(** ** The claims *)




(** C2, as the program has it: for a message with a non-empty body, every
    prompt handed to the Completion Client is the lower-cased body, blanks
    kept, and when the acknowledgment send is accepted exactly that one
    prompt is handed over. *)
Theorem prompt_is_lowercased_body (env : Collaborators) (m : IncomingMessage) :
  body m <> "" ->
  (forall p, In p (prompts (trace (handle env m))) ->
             p = Js.toLowerCase (body m))
  /\ (reply_result env 0 ack_text = Fulfilled tt ->
      prompts (trace (handle env m)) = [Js.toLowerCase (body m)]).
Proof.
  intros Hb. rewrite <- toLowerCase_empty in Hb.
  split; [intros p Hp | intros Hack]; by_path env m; simpl in *;
    try contradiction; try congruence; try reflexivity.
  all: destruct Hp as [<-|[]]; reflexivity.
Qed.

Lemma prompt_is_lowercased_body_witness :
  body (msg_of "  Hello WORLD  ") <> ""
  /\ prompts (trace (handle (answers "4") (msg_of "  Hello WORLD  ")))
     = ["  hello world  "].
Proof.
  split; [discriminate|].
  apply (prompt_is_lowercased_body (answers "4") (msg_of "  Hello WORLD  "));
    [discriminate | reflexivity].
Defined.

(** C2 fails on the spec's own example: the body "  Hello WORLD  " reaches
    the Completion Client with its blanks, not as the trimmed
    "hello world". *)
Lemma prompt_keeps_blanks :
  normalize_spec "  Hello WORLD  " = "hello world"
  /\ prompts (trace (handle (answers "4") (msg_of "  Hello WORLD  ")))
     = ["  hello world  "]
  /\ prompts (trace (handle (answers "4") (msg_of "  Hello WORLD  ")))
     <> [normalize_spec "  Hello WORLD  "].
Proof. repeat split; try reflexivity. discriminate. Qed.




(** C4: when the call of the Completion Client is rejected, whatever the
    reason, the replies handed to the transport are the acknowledgment and
    then the fixed fallback string, nothing else; the reason goes to
    [console.error] and into no reply. *)
Theorem completion_rejection_gives_fallback
    (env : Collaborators) (m : IncomingMessage)
    (model prompt : string) (e : Reason) :
  In (EvGenerate model prompt (Rejected e)) (trace (handle env m)) ->
  outbound (trace (handle env m))
  = ["AI is Thinking...."; "Sorry, I couldn't process that request."]
  /\ logged (trace (handle env m)) = [e]
  /\ In (EvConsoleError "AI Error:" e) (trace (handle env m)).
Proof.
  intros Hin. by_path env m; simpl in *;
    repeat (destruct Hin as [Hin|Hin]; try discriminate); try contradiction.
  injection Hin as _ _ <-. repeat split; auto.
Qed.

Lemma completion_rejection_gives_fallback_witness :
  In (EvGenerate "gemini-2.0-flash" "hi" (Rejected Timeout))
     (trace (handle (fails_with Timeout) (msg_of "Hi")))
  /\ outbound (trace (handle (fails_with Timeout) (msg_of "Hi")))
     = ["AI is Thinking...."; "Sorry, I couldn't process that request."].
Proof.
  assert (H : In (EvGenerate "gemini-2.0-flash" "hi" (Rejected Timeout))
                 (trace (handle (fails_with Timeout) (msg_of "Hi")))).
  { simpl. right. left. reflexivity. }
  split; [exact H|].
  apply (completion_rejection_gives_fallback _ _ _ _ _ H).
Defined.

(** C5, as the program has it: when the Completion Client resolves with a
    text, the reply handed to the transport right after the acknowledgment
    is that text, unchanged.  When the transport accepts it, the outbound
    sequence is the acknowledgment and the text; when the transport rejects
    it, the rejection is logged and the fallback follows as a third
    reply. *)
Theorem completion_text_relayed_verbatim
    (env : Collaborators) (m : IncomingMessage)
    (model prompt text : string) :
  In (EvGenerate model prompt (Fulfilled text)) (trace (handle env m)) ->
  body m <> ""
  /\ (exists rest,
         outbound (trace (handle env m)) = "AI is Thinking...." :: text :: rest)
  /\ (reply_result env 1 text = Fulfilled tt ->
      outbound (trace (handle env m)) = ["AI is Thinking...."; text])
  /\ (forall e,
        reply_result env 1 text = Rejected e ->
        outbound (trace (handle env m))
        = ["AI is Thinking...."; text; "Sorry, I couldn't process that request."]
        /\ logged (trace (handle env m)) = [e]).
Proof.
  intros Hin.
  assert (Hb : Js.toLowerCase (body m) <> "" -> body m <> "").
  { intros H Hb. now rewrite Hb in H. }
  by_path env m; simpl in *;
    repeat (destruct Hin as [Hin|Hin]; try discriminate); try contradiction;
    injection Hin as _ _ <-.
  - split; [auto|]. split; [eauto|]. split; [reflexivity|].
    intros e' He'. congruence.
  - split; [auto|]. split; [eauto|]. split; [congruence|].
    intros e' He'. split; [reflexivity|]. congruence.
Qed.

Lemma completion_text_relayed_verbatim_witness :
  In (EvGenerate "gemini-2.0-flash" "what is 2+2?" (Fulfilled "4"))
     (trace (handle (answers "4") (msg_of "What is 2+2?")))
  /\ reply_result (answers "4") 1 "4" = Fulfilled tt
  /\ outbound (trace (handle (answers "4") (msg_of "What is 2+2?")))
     = ["AI is Thinking...."; "4"].
Proof.
  assert (H : In (EvGenerate "gemini-2.0-flash" "what is 2+2?" (Fulfilled "4"))
                 (trace (handle (answers "4") (msg_of "What is 2+2?")))).
  { simpl. right. left. reflexivity. }
  split; [exact H|]. split; [reflexivity|].
  apply (completion_text_relayed_verbatim _ _ _ _ _ H). reflexivity.
Defined.

(** C5 fails on the spec's own scenario when the transport loses the send
    of the answer: the Completion Client resolves with "4" for the body
    "What is 2+2?", yet the outbound sequence is not the acknowledgment and
    "4" alone, the fallback comes after them. *)
Lemma relayed_text_followed_by_fallback :
  body (msg_of "What is 2+2?") <> ""
  /\ generateText (drops_second "4") model_id
       (Js.toLowerCase (body (msg_of "What is 2+2?"))) = Fulfilled "4"
  /\ outbound (trace (handle (drops_second "4") (msg_of "What is 2+2?")))
     <> ["AI is Thinking...."; "4"]
  /\ last (outbound (trace (handle (drops_second "4") (msg_of "What is 2+2?"))))
     = Some "Sorry, I couldn't process that request.".
Proof. repeat split; try reflexivity; discriminate. Qed.

(** C6, as the program has it: for a message with a non-empty body the
    acknowledgment is handed to the transport first, so the outbound
    sequence is never empty, and at most two replies follow it; when the
    transport accepts the acknowledgment and the send of the AI text (if the
    completion gave one), exactly one result reply follows, the AI text or
    the fallback string. *)
Theorem nonempty_body_replies (env : Collaborators) (m : IncomingMessage) :
  body m <> "" ->
  (exists rest,
      outbound (trace (handle env m)) = ack_text :: rest
      /\ length rest <= 2)
  /\ (reply_result env 0 ack_text = Fulfilled tt ->
      (forall text,
          generateText env model_id (Js.toLowerCase (body m)) = Fulfilled text ->
          reply_result env 1 text = Fulfilled tt) ->
      exists result,
        outbound (trace (handle env m)) = [ack_text; result]
        /\ (generateText env model_id (Js.toLowerCase (body m)) = Fulfilled result
            \/ result = fallback_text)).
Proof.
  intros Hb. rewrite <- toLowerCase_empty in Hb.
  split.
  - by_path env m; simpl; try contradiction; eexists; split;
      try reflexivity; simpl; lia.
  - intros Hack Hsend. by_path env m; simpl; try contradiction; try congruence.
    + eexists; split; [reflexivity|]. now left.
    + match goal with
      | Hg : generateText env model_id _ = Fulfilled ?t |- _ =>
          specialize (Hsend t Hg)
      end. congruence.
    + eexists; split; [reflexivity|]. now right.
Qed.

Lemma nonempty_body_replies_witness :
  body (msg_of "What is 2+2?") <> ""
  /\ exists result,
      outbound (trace (handle (answers "4") (msg_of "What is 2+2?")))
      = [ack_text; result]
      /\ (generateText (answers "4") model_id
            (Js.toLowerCase (body (msg_of "What is 2+2?"))) = Fulfilled result
          \/ result = fallback_text).
Proof.
  split; [discriminate|].
  apply (nonempty_body_replies (answers "4") (msg_of "What is 2+2?"));
    [discriminate | reflexivity | intros; reflexivity].
Defined.

(** C6 fails when the transport loses the send of the AI text: the
    [catch] then sends the fallback as well, three replies in all, two of
    them result replies. *)
Lemma lost_relay_gives_three_replies :
  body (msg_of "What is 2+2?") <> ""
  /\ outbound (trace (handle (drops_second "4") (msg_of "What is 2+2?")))
     = ["AI is Thinking...."; "4"; "Sorry, I couldn't process that request."]
  /\ length (outbound (trace (handle (drops_second "4") (msg_of "What is 2+2?"))))
     = 3.
Proof. repeat split; try reflexivity. discriminate. Qed.

(** C7, as the program has it: a credential missing from the environment
    (after the [.env] file is loaded) changes nothing at start-up.  The
    module registers its listeners and initializes the session once, the
    process does not exit, and it goes on to run a reply cycle for every
    message event. *)
Theorem startup_ignores_missing_credential
    (file env : gmap string string) (key : string) :
  dotenv_config file env !! key = None ->
  exit_code (startup file env) = None
  /\ ~ exited_nonzero (startup file env)
  /\ initialize_calls (client (startup file env)) = 1
  /\ listeners (client (startup file env))
     = [("qr", QrListener); ("ready", ReadyListener); ("message", MessageListener)]
  /\ forall c m, emit_message (startup file env) c m = Some (handle c m).
Proof.
  intros _. repeat split; try reflexivity.
  unfold exited_nonzero; simpl. tauto.
Qed.

Lemma startup_ignores_missing_credential_witness :
  dotenv_config ∅ ∅ !! "GOOGLE_GENERATIVE_AI_API_KEY" = None
  /\ exit_code (startup ∅ ∅) = None.
Proof.
  assert (H : dotenv_config ∅ ∅ !! "GOOGLE_GENERATIVE_AI_API_KEY"
              = (None : option string)).
  { vm_compute. reflexivity. }
  split; [exact H|].
  apply (startup_ignores_missing_credential ∅ ∅ _ H).
Defined.

(** C7 fails with an empty environment and no [.env] file: the credential is
    missing, yet the process has not exited and answers a message (with the
    fallback, once the Completion Client rejects for want of the key). *)
Lemma starts_without_credential :
  dotenv_config ∅ ∅ !! "GOOGLE_GENERATIVE_AI_API_KEY" = None
  /\ ~ exited_nonzero (startup ∅ ∅)
  /\ option_map (fun r => outbound (trace r))
       (emit_message (startup ∅ ∅) (fails_with MissingApiKey) (msg_of "hi"))
     = Some ["AI is Thinking...."; "Sorry, I couldn't process that request."].
Proof.
  split; [|split].
  - vm_compute. reflexivity.
  - unfold exited_nonzero; simpl. tauto.
  - reflexivity.
Qed.

(** C8: the message object is the same after the reply cycle as before it:
    sender, body and time stamp are what the transport delivered. *)
Theorem handle_leaves_message_unchanged
    (env : Collaborators) (m : IncomingMessage) :
  message (snd (handle env m)) = m
  /\ sender_id (message (snd (handle env m))) = sender_id m
  /\ body (message (snd (handle env m))) = body m
  /\ received_at (message (snd (handle env m))) = received_at m.
Proof.
  assert (H : message (snd (handle env m)) = m).
  { unfold handle. now rewrite frames_on_message. }
  rewrite H. repeat split; reflexivity.
Qed.

(** Case-insensitivity in the 8-bit model, where every body lies in
    U+0000..U+00FF: two messages whose bodies are equal up to letter case
    give the same prompt, namely the lower-cased body, and, with the same
    collaborators, the same trace and the same outcome. *)
Theorem handle_case_insensitive
    (env : Collaborators) (m1 m2 : IncomingMessage) :
  Js.eq_upto_case (body m1) (body m2) ->
  Js.toLowerCase (body m1) = Js.toLowerCase (body m2)
  /\ prompts (trace (handle env m1)) = prompts (trace (handle env m2))
  /\ outbound (trace (handle env m1)) = outbound (trace (handle env m2))
  /\ trace (handle env m1) = trace (handle env m2)
  /\ outcome (handle env m1) = outcome (handle env m2).
Proof.
  intros Heq. apply toLowerCase_eq_upto_case in Heq.
  pose proof (handle_cycle env m1) as H1.
  pose proof (handle_cycle env m2) as H2.
  rewrite Heq in H1.
  destruct (cycle_functional _ _ _ _ _ _ H1 H2) as [Ho Ht].
  rewrite Ht, Ho. repeat split; assumption.
Qed.

Lemma handle_case_insensitive_witness :
  Js.eq_upto_case "Hi" "hI"
  /\ trace (handle (answers "4") {| sender_id := "A"; body := "Hi"; received_at := 1 |})
     = trace (handle (answers "4") {| sender_id := "B"; body := "hI"; received_at := 2 |}).
Proof.
  assert (H : Js.eq_upto_case "Hi" "hI").
  { constructor.
    - right; left. split; reflexivity.
    - constructor; [|constructor].
      right; right. split; reflexivity. }
  split; [exact H|].
  apply (handle_case_insensitive (answers "4")
           {| sender_id := "A"; body := "Hi"; received_at := 1 |}
           {| sender_id := "B"; body := "hI"; received_at := 2 |} H).
Defined.

(** C10: when the transport rejects the acknowledgment, the cycle stops
    there: the handler rejects with the transport's reason, the Completion
    Client is not called, and neither a result nor the fallback is handed to
    the transport. *)
Theorem ack_rejection_aborts_cycle
    (env : Collaborators) (m : IncomingMessage) (e : Reason) :
  body m <> "" ->
  reply_result env 0 ack_text = Rejected e ->
  trace (handle env m) = [EvReply ack_text (Rejected e)]
  /\ prompts (trace (handle env m)) = []
  /\ outbound (trace (handle env m)) = [ack_text]
  /\ outcome (handle env m) = Rejected e.
Proof.
  intros Hb Hack. rewrite <- toLowerCase_empty in Hb.
  by_path env m; try contradiction; try congruence.
  assert (e0 = e) as -> by congruence.
  repeat split; reflexivity.
Qed.

Lemma ack_rejection_aborts_cycle_witness :
  body (msg_of "hi") <> ""
  /\ reply_result transport_down 0 ack_text = Rejected SendFailed
  /\ prompts (trace (handle transport_down (msg_of "hi"))) = [].
Proof.
  split; [discriminate|]. split; [reflexivity|].
  apply (ack_rejection_aborts_cycle transport_down (msg_of "hi") SendFailed);
    [discriminate | reflexivity].
Defined.

(** ** Further properties of the reply cycle *)

(** X1: a reply cycle calls the Completion Client at most once (there is no
    retry), always for the model "gemini-2.0-flash", and what the trace
    records as the call's result is what the client settled with. *)
Theorem single_completion_attempt (env : Collaborators) (m : IncomingMessage) :
  length (prompts (trace (handle env m))) <= 1
  /\ (forall model, In model (models (trace (handle env m))) ->
                    model = "gemini-2.0-flash")
  /\ (forall model p r,
        In (EvGenerate model p r) (trace (handle env m)) ->
        r = generateText env model p).
Proof.
  split; [|split].
  - by_path env m; simpl; lia.
  - intros model Hin. by_path env m; simpl in *;
      repeat (destruct Hin as [Hin|Hin]; try discriminate);
      try contradiction; now subst.
  - intros model p r0 Hin. by_path env m; simpl in *;
      repeat (destruct Hin as [Hin|Hin]; try discriminate);
      try contradiction; injection Hin as <- <- <-; congruence.
Qed.

(** X2: the Completion Client is called exactly when the body is not empty
    and the transport accepted the acknowledgment. *)
Theorem completion_called_iff_ack_accepted
    (env : Collaborators) (m : IncomingMessage) :
  prompts (trace (handle env m)) <> []
  <-> body m <> "" /\ reply_result env 0 ack_text = Fulfilled tt.
Proof.
  rewrite <- (toLowerCase_empty (body m)).
  by_path env m; simpl; split;
    try (intros [Hb Hack]); try intros Hp;
    try contradiction; try congruence; try (split; assumption).
Qed.

(** X3: [console.error] is called exactly when the acknowledgment went out
    and then either the Completion Client rejected or the transport rejected
    the send of its text. *)
Theorem error_logged_iff_failure_after_ack
    (env : Collaborators) (m : IncomingMessage) :
  logged (trace (handle env m)) <> []
  <-> body m <> ""
      /\ reply_result env 0 ack_text = Fulfilled tt
      /\ ((exists e,
              generateText env model_id (Js.toLowerCase (body m)) = Rejected e)
          \/ (exists text e,
                 generateText env model_id (Js.toLowerCase (body m))
                 = Fulfilled text
                 /\ reply_result env 1 text = Rejected e)).
Proof.
  rewrite <- (toLowerCase_empty (body m)).
  by_path env m; simpl; split.
  - congruence.
  - intros (Hb & _). contradiction.
  - congruence.
  - intros (_ & Hack & _). congruence.
  - congruence.
  - intros (_ & _ & [[e He]|(text & e & Hg & Hs)]); [congruence|].
    assert (text = t) as -> by congruence. congruence.
  - intros _. repeat split; try assumption. right. eauto.
  - discriminate.
  - intros _. repeat split; try assumption. left. eauto.
  - discriminate.
Qed.

(** X4: every text handed to the transport is the acknowledgment, the
    fallback, or the text the Completion Client returned for the lower-cased
    body; nothing else is ever sent. *)
Theorem outbound_vocabulary
    (env : Collaborators) (m : IncomingMessage) (text : string) :
  In text (outbound (trace (handle env m))) ->
  text = ack_text
  \/ text = fallback_text
  \/ generateText env model_id (Js.toLowerCase (body m)) = Fulfilled text.
Proof.
  intros Hin. by_path env m; simpl in *;
    repeat (destruct Hin as [Hin|Hin]); try contradiction; subst; auto.
Qed.

Lemma outbound_vocabulary_witness :
  In "4" (outbound (trace (handle (answers "4") (msg_of "What is 2+2?"))))
  /\ ("4" = ack_text
      \/ "4" = fallback_text
      \/ generateText (answers "4") model_id
           (Js.toLowerCase (body (msg_of "What is 2+2?"))) = Fulfilled "4").
Proof.
  assert (H : In "4" (outbound (trace (handle (answers "4")
                                         (msg_of "What is 2+2?"))))).
  { simpl. right. left. reflexivity. }
  split; [exact H|].
  apply (outbound_vocabulary _ _ _ H).
Defined.

(** X5: when an error is logged, it is logged once, under the label
    "AI Error:", and the very next thing the handler does is send the
    fallback, which ends the cycle: the handler settles as that send does. *)
Theorem logged_error_is_followed_by_fallback
    (env : Collaborators) (m : IncomingMessage) (label : string) (e : Reason) :
  In (EvConsoleError label e) (trace (handle env m)) ->
  label = "AI Error:"
  /\ logged (trace (handle env m)) = [e]
  /\ exists before,
      trace (handle env m)
      = before ++ [EvConsoleError "AI Error:" e;
                   EvReply fallback_text (outcome (handle env m))].
Proof.
  intros Hin. by_path env m; simpl in *;
    repeat (destruct Hin as [Hin|Hin]; try discriminate); try contradiction;
    injection Hin as <- <-.
  - repeat split.
    exists [EvReply ack_text (Fulfilled tt);
            EvGenerate model_id (Js.toLowerCase (body m)) (Fulfilled t);
            EvReply t (Rejected e0)].
    reflexivity.
  - repeat split.
    exists [EvReply ack_text (Fulfilled tt);
            EvGenerate model_id (Js.toLowerCase (body m)) (Rejected e0)].
    reflexivity.
Qed.

Lemma logged_error_is_followed_by_fallback_witness :
  In (EvConsoleError "AI Error:" QuotaExceeded)
     (trace (handle (fails_with QuotaExceeded) (msg_of "hi")))
  /\ logged (trace (handle (fails_with QuotaExceeded) (msg_of "hi")))
     = [QuotaExceeded].
Proof.
  assert (H : In (EvConsoleError "AI Error:" QuotaExceeded)
                 (trace (handle (fails_with QuotaExceeded) (msg_of "hi")))).
  { simpl. right. right. left. reflexivity. }
  split; [exact H|].
  apply (logged_error_is_followed_by_fallback _ _ _ _ H).
Defined.

(** X6: when the handler resolves normally on a non-empty body, the last
    thing it did was a send that the transport accepted, of the fallback or
    of the text the Completion Client returned: the sender got a result. *)
Theorem resolved_cycle_ends_with_accepted_result
    (env : Collaborators) (m : IncomingMessage) :
  body m <> "" ->
  outcome (handle env m) = Fulfilled tt ->
  exists before text,
    trace (handle env m) = before ++ [EvReply text (Fulfilled tt)]
    /\ (text = fallback_text
        \/ generateText env model_id (Js.toLowerCase (body m)) = Fulfilled text).
Proof.
  intros Hb. rewrite <- toLowerCase_empty in Hb.
  intros Ho. by_path env m; try contradiction; try discriminate.
  - exists [EvReply ack_text (Fulfilled tt);
            EvGenerate model_id (Js.toLowerCase (body m)) (Fulfilled t)], t.
    split; [reflexivity | now right].
  - rewrite Ho.
    exists [EvReply ack_text (Fulfilled tt);
            EvGenerate model_id (Js.toLowerCase (body m)) (Fulfilled t);
            EvReply t (Rejected e); EvConsoleError "AI Error:" e], fallback_text.
    split; [reflexivity | now left].
  - rewrite Ho.
    exists [EvReply ack_text (Fulfilled tt);
            EvGenerate model_id (Js.toLowerCase (body m)) (Rejected e);
            EvConsoleError "AI Error:" e], fallback_text.
    split; [reflexivity | now left].
Qed.

Lemma resolved_cycle_ends_with_accepted_result_witness :
  body (msg_of "hi") <> ""
  /\ outcome (handle (drops_second "4") (msg_of "hi")) = Fulfilled tt
  /\ exists before text,
      trace (handle (drops_second "4") (msg_of "hi"))
      = before ++ [EvReply text (Fulfilled tt)]
      /\ (text = fallback_text
          \/ generateText (drops_second "4") model_id
               (Js.toLowerCase (body (msg_of "hi"))) = Fulfilled text).
Proof.
  split; [discriminate|]. split; [reflexivity|].
  apply (resolved_cycle_ends_with_accepted_result (drops_second "4") (msg_of "hi"));
    [discriminate | reflexivity].
Defined.

(** ** What lower-casing does to the prompt *)




(** ** What start-up subscribes to *)

Lemma listeners_for_unsubscribed
    (file env : gmap string string) (name : string) :
  ~ In name subscribed ->
  listeners_for name (client (startup file env)) = [].
Proof.
  intros Hn. unfold listeners_for, startup; cbn -[String.eqb].
  assert (Hq : String.eqb "qr" name = false).
  { apply String.eqb_neq. intros <-. apply Hn. simpl. auto. }
  assert (Hr : String.eqb "ready" name = false).
  { apply String.eqb_neq. intros <-. apply Hn. simpl. auto. }
  assert (Hm : String.eqb "message" name = false).
  { apply String.eqb_neq. intros <-. apply Hn. simpl. auto. }
  now rewrite Hq, Hr, Hm.
Qed.

(** X9: after start-up each of the events "qr", "ready" and "message" has
    exactly one listener registered, its own, and no other event name has
    any: the module subscribes to nothing else. *)
Theorem startup_subscribes_to_three_events (file env : gmap string string) :
  listeners_for "qr" (client (startup file env)) = [QrListener]
  /\ listeners_for "ready" (client (startup file env)) = [ReadyListener]
  /\ listeners_for "message" (client (startup file env)) = [MessageListener]
  /\ (forall name, ~ In name subscribed ->
                   listeners_for name (client (startup file env)) = []).
Proof.
  repeat split; try reflexivity.
  intros name Hn. now apply listeners_for_unsubscribed.
Qed.

(** ** How many replies a cycle attempts *)

(** X11: the number of replies handed to the transport tells the path of
    the cycle: none exactly for the empty body; one exactly when the
    acknowledgment of a non-empty body is rejected; three exactly when the
    acknowledgment went out, the Completion Client returned a text and the
    transport rejected the send of that text; two in every other case. *)
Theorem reply_count_tells_the_path (env : Collaborators) (m : IncomingMessage) :
  (length (outbound (trace (handle env m))) = 0 <-> body m = "")
  /\ (length (outbound (trace (handle env m))) = 1
      <-> body m <> "" /\ exists e, reply_result env 0 ack_text = Rejected e)
  /\ (length (outbound (trace (handle env m))) = 3
      <-> body m <> ""
          /\ reply_result env 0 ack_text = Fulfilled tt
          /\ exists text e,
              generateText env model_id (Js.toLowerCase (body m)) = Fulfilled text
              /\ reply_result env 1 text = Rejected e)
  /\ length (outbound (trace (handle env m))) <= 3.
Proof.
  rewrite <- (toLowerCase_empty (body m)).
  by_path env m; simpl; repeat split;
    try lia; try congruence; try assumption; try discriminate;
    try (intros (Hb & _); contradiction);
    try (intros (_ & e' & He'); congruence);
    try (intros (_ & Hack' & _); congruence);
    eauto.
  - intros (_ & _ & text & e' & Hg & Hs).
    assert (text = t) as -> by congruence. congruence.
  - intros (_ & _ & text & e' & Hg & _). congruence.
Qed.

(** ** Letter case beyond U+00FF *)

Lemma utf16_lower_from_latin1 (b : bool) (s : Utf16.ustring) :
  Forall (fun u => Utf16.latin1 u = true) s ->
  Utf16.lower_from b s = map Utf16.lower_unit s.
Proof.
  intros Hs. revert b.
  induction Hs as [|u s Hu _ IH]; intros b; simpl; [reflexivity|].
  unfold Utf16.latin1 in Hu. apply N.leb_le in Hu.
  assert (Hsig : (u =? Utf16.capital_sigma)%N = false).
  { apply N.eqb_neq. unfold Utf16.capital_sigma. lia. }
  now rewrite Hsig, IH.
Qed.

Lemma utf16_is_upper_range (u : N) :
  Utf16.is_upper u = true ->
  (65 <= u <= 90 \/ 192 <= u <= 222 \/ 913 <= u <= 937)%N.
Proof.
  unfold Utf16.is_upper; intros H.
  repeat (apply orb_true_iff in H as [H|H]);
    repeat (apply andb_true_iff in H as [H ?]);
    repeat match goal with
           | Hle : (_ <=? _)%N = true |- _ => apply N.leb_le in Hle
           end; lia.
Qed.

Lemma utf16_partner_not_upper (u : N) :
  Utf16.is_upper u = true -> Utf16.is_upper (u + 32) = false.
Proof.
  intros Hup. pose proof (utf16_is_upper_range u Hup) as Hr.
  unfold Utf16.is_upper.
  destruct (N.leb_spec 65 (u + 32)), (N.leb_spec (u + 32) 90),
    (N.leb_spec 192 (u + 32)), (N.leb_spec (u + 32) 222),
    (N.leb_spec 913 (u + 32)), (N.leb_spec (u + 32) 937);
    simpl; try reflexivity; lia.
Qed.


Lemma utf16_lower_unit_not_upper (u : N) :
  Utf16.is_upper (Utf16.lower_unit u) = false.
Proof.
  unfold Utf16.lower_unit. destruct (Utf16.is_upper u) eqn:Hup; [|exact Hup].
  now apply utf16_partner_not_upper.
Qed.


Lemma utf16_handle_prompts (env : Utf16.Collaborators) (m : Utf16.IncomingMessage)
    (p : Utf16.ustring) :
  In p (Utf16.prompts (Utf16.trace (Utf16.handle env m))) ->
  p = Utf16.toLowerCase (Utf16.body m).
Proof.
  unfold Utf16.handle, Utf16.trace, Utf16.on_message.
  unfold mbind, Utf16.Async_bind, Utf16.bind, Utf16.message_body; simpl.
  destruct (Utf16.truthy _); simpl; [|tauto].
  unfold Utf16.message_reply at 1, Utf16.replies_so_far; simpl.
  destruct (Utf16.reply_result env 0 _) as [[]|e]; simpl; [|tauto].
  unfold Utf16.try_catch, Utf16.ai, mbind, mret, Utf16.Async_bind,
    Utf16.Async_ret, Utf16.bind, Utf16.ret, Utf16.await_generateText; simpl.
  destruct (Utf16.generateText env _ _) as [t|e]; simpl.
  - unfold Utf16.message_reply, Utf16.replies_so_far; simpl.
    destruct (Utf16.reply_result env 1 t) as [[]|e]; simpl;
      intros [<-|[]]; reflexivity.
  - intros [<-|[]]; reflexivity.
Qed.




(** X7: for a body made of code units U+0000..U+00FF, no prompt that
    reaches the Completion Client holds a capital letter (A..Z or an
    accented capital U+00C0..U+00DE). *)
Theorem latin1_prompt_has_no_capitals
    (env : Utf16.Collaborators) (m : Utf16.IncomingMessage) (p : Utf16.ustring) :
  Forall (fun u => Utf16.latin1 u = true) (Utf16.body m) ->
  In p (Utf16.prompts (Utf16.trace (Utf16.handle env m))) ->
  Forall (fun u => Utf16.is_upper u = false) p.
Proof.
  intros Hl Hin. apply utf16_handle_prompts in Hin. subst p.
  unfold Utf16.toLowerCase. rewrite (utf16_lower_from_latin1 _ _ Hl).
  clear Hl. induction (Utf16.body m) as [|u s IH]; simpl; constructor.
  - apply utf16_lower_unit_not_upper.
  - exact IH.
Qed.

Lemma latin1_prompt_has_no_capitals_witness :
  Forall (fun u => Utf16.latin1 u = true) (Utf16.units "Hi")
  /\ In (Utf16.units "hi")
        (Utf16.prompts (Utf16.trace (Utf16.handle (Utf16.answers (Utf16.units "4"))
                                       (Utf16.msg_of (Utf16.units "Hi")))))
  /\ Forall (fun u => Utf16.is_upper u = false) (Utf16.units "hi").
Proof.
  assert (H1 : Forall (fun u => Utf16.latin1 u = true) (Utf16.units "Hi")).
  { repeat constructor. }
  assert (H2 : In (Utf16.units "hi")
        (Utf16.prompts (Utf16.trace (Utf16.handle (Utf16.answers (Utf16.units "4"))
                                       (Utf16.msg_of (Utf16.units "Hi")))))).
  { simpl. left. reflexivity. }
  split; [exact H1|]. split; [exact H2|].
  apply (latin1_prompt_has_no_capitals (Utf16.answers (Utf16.units "4"))
           (Utf16.msg_of (Utf16.units "Hi")) _ H1 H2).
Defined.

(** The wide model extends the 8-bit one: on the code units of an 8-bit
    string the two lower-casings agree. *)
Lemma utf16_lower_unit_8bit (c : ascii) :
  Utf16.lower_unit (N_of_ascii c) = N_of_ascii (Js.lower_unit c).
Proof.
  pose proof (N_ascii_bounded c) as Hc.
  assert (Hup : Utf16.is_upper (N_of_ascii c) = Js.is_upper c).
  { unfold Utf16.is_upper, Js.is_upper.
    set (n := N_of_ascii c) in *.
    assert (H913 : (913 <=? n)%N = false) by (apply N.leb_gt; lia).
    rewrite H913; simpl. now rewrite orb_false_r. }
  unfold Utf16.lower_unit, Js.lower_unit. rewrite Hup.
  destruct (Js.is_upper c) eqn:Hu; [|reflexivity].
  symmetry. apply N_ascii_embedding.
  pose proof (is_upper_range c Hu). lia.
Qed.

Lemma utf16_units_latin1 (s : string) :
  Forall (fun u => Utf16.latin1 u = true) (Utf16.units s).
Proof.
  induction s as [|c s IH]; simpl; constructor; [|exact IH].
  unfold Utf16.latin1. apply N.leb_le.
  pose proof (N_ascii_bounded c). lia.
Qed.

Lemma utf16_agrees_on_8bit (s : string) :
  Utf16.toLowerCase (Utf16.units s) = Utf16.units (Js.toLowerCase s).
Proof.
  unfold Utf16.toLowerCase.
  rewrite (utf16_lower_from_latin1 _ _ (utf16_units_latin1 s)).
  induction s as [|c s IH]; simpl; [reflexivity|].
  unfold Utf16.units in IH. now rewrite utf16_lower_unit_8bit, IH.
Qed.

Example greek_bodies_covered :
  forallb Utf16.covered [913; 931; 963; 945; 962]%N = true.
Proof. reflexivity. Qed.
